(** * Penguin species classification: serving handler and training script

    A shallow embedding of [app/main.py] (the [/predict] handler) and of
    [train_model_advanced.py] (the offline training script), with the
    properties of the specification stated and settled against them.

    Python's [float] is IEEE 754 binary64, which is what Rocq's primitive
    [float] is: comparisons and literals below are the machine's own.
    Python's [str] is modelled by [string]; on UTF-8 text the byte-wise
    lexicographic order of [String.compare] is the code-point order Python
    and NumPy sort by. *)

From Stdlib Require Import List String Ascii Bool ZArith Lia Floats.
From Stdlib Require Import Sorting.Sorted.
Import ListNotations.

Local Open Scope string_scope.
Local Open Scope list_scope.
Set Warnings "-inexact-float".

(* ================================================================== *)
(** * Part I: definitions                                              *)
(* ================================================================== *)

(** ** Python exceptions and results *)

Module Py.

(** A raised exception: its class name and its message. *)
Record exn : Type := Exn { exn_class : string; exn_args : list string }.

(** The outcome of a Python call: a value, or an exception that unwinds. *)
Inductive result (A : Type) : Type :=
| Ok (a : A)
| Raise (e : exn).
Arguments Ok {A} a.
Arguments Raise {A} e.

Definition bind {A B : Type} (m : result A) (k : A -> result B) : result B :=
  match m with
  | Ok a => k a
  | Raise e => Raise e
  end.

(** [KeyError]: the keys that were looked up and not found. *)
Definition KeyError (keys : list string) : exn := Exn "KeyError" keys.

End Py.

Notation "x <- m ;; k" := (Py.bind m (fun x => k))
  (at level 61, m at next level, right associativity).
Notation "' pat <- m ;; k" := (Py.bind m (fun x => match x with pat => k end))
  (at level 61, pat pattern, m at next level, right associativity).

(** ** app/main.py *)

Module Main.

(** [class PenguinFeatures(BaseModel)]: the four declared fields, all [float]. *)
Record PenguinFeatures : Type := {
  bill_length_mm : float;
  bill_depth_mm : float;
  flipper_length_mm : float;
  body_mass_g : float
}.

(** [class PredictionResponse(BaseModel)]; [message] has a default. *)
Record PredictionResponse : Type := {
  species : string;
  confidence : float;
  message : string
}.

(** The constructor call [PredictionResponse(species=..., confidence=...)]:
    [message] takes its declared default. *)
Definition new_PredictionResponse (sp : string) (c : float) : PredictionResponse :=
  {| species := sp; confidence := c; message := "Prediction successful" |}.

(** What the route hands back to the framework: the returned model, or the
    [HTTPException] it raised. *)
Inductive HandlerResult : Type :=
| Returned (r : PredictionResponse)
| HTTPException (status_code : Z) (detail : string).

(** The body of the [try] block (lines 66-80): the mock if/elif/else chain,
    then the construction of the response.  [x > y] on floats is [y <? x]. *)
Definition try_body (features : PenguinFeatures) : Py.result PredictionResponse :=
  let '(sp, c) :=
    if (45 <? bill_length_mm features)%float then ("Gentoo", 0.85%float)
    else if (18 <? bill_depth_mm features)%float then ("Adelie", 0.78%float)
    else ("Chinstrap", 0.82%float) in
  Py.Ok (new_PredictionResponse sp c).

(** [async def predict_penguin_species(features)]: the [try] block, with
    [except Exception] turning any exception into [HTTPException(500)]
    (the handler also logs the exception; the log is not modelled). *)
Definition predict_penguin_species (features : PenguinFeatures) : HandlerResult :=
  match try_body features with
  | Py.Ok r => Returned r
  | Py.Raise _ => HTTPException 500 "Prediction failed"
  end.

(** A scalar of a JSON request body. *)
Inductive json_scalar : Type :=
| JNull
| JBool (b : bool)
| JNumber (x : float)
| JString (s : string).

(** A request body that passed the framework's validation against
    [PenguinFeatures]: the four declared fields, converted to [float], and
    whatever other keys the client sent besides. *)
Record PredictRequest : Type := {
  declared : PenguinFeatures;
  undeclared : list (string * json_scalar)
}.

(** [POST /predict]: the handler receives the [PenguinFeatures] instance,
    which carries the declared fields only. *)
Definition post_predict (req : PredictRequest) : HandlerResult :=
  predict_penguin_species (declared req).

(** The measurements of a request as the positional vector the
    specification speaks of. *)
Definition measurement_vector (features : PenguinFeatures) : list float :=
  [bill_length_mm features; bill_depth_mm features;
   flipper_length_mm features; body_mass_g features].

(** The request of [tests/test_api.py::test_predict_valid_input]. *)
Definition sample_data : PenguinFeatures :=
  {| bill_length_mm := 39.1; bill_depth_mm := 18.7;
     flipper_length_mm := 181; body_mass_g := 3750 |}.




End Main.

(** ** The pandas and scikit-learn operations the training script calls *)

Module Frame.

(** A cell of a data frame: a number, a string, a boolean indicator, or a
    missing value ([None]; a [NaN] number is missing as well). *)
Inductive cell : Type :=
| Num (x : float)
| Str (s : string)
| Flag (b : bool)
| NA.

(** A frame: its column names, in order, and its records.  A record is read
    by position; a position it does not fill reads as missing. *)
Record DataFrame : Type := {
  columns : list string;
  rows : list (list cell)
}.

Definition cell_at (r : list cell) (i : nat) : cell := nth i r NA.

Definition isna (c : cell) : bool :=
  match c with
  | NA => true
  | Num x => PrimFloat.is_nan x
  | _ => false
  end.

(** A record is complete when none of the frame's columns is missing in it. *)
Definition complete (ncols : nat) (r : list cell) : bool :=
  forallb (fun i => negb (isna (cell_at r i))) (seq 0 ncols).

(** [df.dropna()]: keeps the complete records, as they are and in order. *)
Definition dropna (df : DataFrame) : DataFrame :=
  {| columns := columns df;
     rows := filter (complete (List.length (columns df))) (rows df) |}.

(** The position of a column name (the first one, should a name repeat). *)
Fixpoint index_of (name : string) (cols : list string) : option nat :=
  match cols with
  | [] => None
  | c :: cols' =>
      if String.eqb c name then Some 0
      else option_map S (index_of name cols')
  end.

(** [df[name]]: the values of one column, or [KeyError]. *)
Definition column (df : DataFrame) (name : string) : Py.result (list cell) :=
  match index_of name (columns df) with
  | Some i => Py.Ok (map (fun r => cell_at r i) (rows df))
  | None => Py.Raise (Py.KeyError [name])
  end.

(** The names of [names] that are not columns of the frame. *)
Definition missing_names (names cols : list string) : list string :=
  filter (fun n => match index_of n cols with Some _ => false | None => true end)
         names.

(** The positions of [names], where every name is a column. *)
Definition positions (names cols : list string) : list nat :=
  flat_map (fun n => match index_of n cols with Some i => [i] | None => [] end)
           names.

(** [df[names]] with a list of names: those columns in the order asked for,
    or [KeyError] naming the ones the frame does not have. *)
Definition select (df : DataFrame) (names : list string) : Py.result DataFrame :=
  match missing_names names (columns df) with
  | [] =>
      let ps := positions names (columns df) in
      Py.Ok {| columns := names;
               rows := map (fun r => map (cell_at r) ps) (rows df) |}
  | missing => Py.Raise (Py.KeyError missing)
  end.

(** The order values of one kind sort by: numbers by value, strings by code
    point, [False] before [True].  A column read from CSV holds one kind;
    across kinds the order only fixes a rank. *)
Definition rank (c : cell) : nat :=
  match c with
  | Flag _ => 0
  | Num _ => 1
  | Str _ => 2
  | NA => 3
  end.


Definition cell_ltb (a b : cell) : bool :=
  match a, b with
  | Num x, Num y => (x <? y)%float
  | Str s, Str t => (s <? t)%string
  | Flag x, Flag y => negb x && y
  | _, _ => Nat.ltb (rank a) (rank b)
  end.

Definition cell_eqb (a b : cell) : bool :=
  match a, b with
  | Num x, Num y => (x =? y)%float
  | Str s, Str t => String.eqb s t
  | Flag x, Flag y => Bool.eqb x y
  | _, _ => false
  end.

Section Unique.

Context {A : Type} (ltb : A -> A -> bool).

(** Insertion into a strictly increasing list; a value already there (neither
    smaller nor larger than one of the list) is not added again. *)
Fixpoint insert_unique (x : A) (l : list A) : list A :=
  match l with
  | [] => [x]
  | y :: l' =>
      if ltb x y then x :: l
      else if ltb y x then y :: insert_unique x l'
      else l
  end.

(** The sorted distinct values of a list ([np.unique], [sorted(set(...))]). *)
Definition unique (l : list A) : list A := fold_right insert_unique [] l.

End Unique.

(** The index of a value among the classes (their count, if it is none). *)
Fixpoint class_index (classes : list cell) (c : cell) : nat :=
  match classes with
  | [] => 0
  | k :: classes' => if cell_eqb k c then 0 else S (class_index classes' c)
  end.

(** [LabelEncoder().fit_transform(y)]: [classes_] are the sorted distinct
    labels, and each label is encoded as its index among them. *)
Definition fit_transform (y : list cell) : list cell * list nat :=
  let classes := unique cell_ltb y in
  (classes, map (class_index classes) y).

Section GetDummies.

(** Python's [str] of a number, which names the indicator column of a
    numeric level; the digits it prints are not modelled. *)
Variable float_str : float -> string.

Definition level_name (c : cell) : string :=
  match c with
  | Str s => s
  | Num x => float_str x
  | Flag true => "True"
  | Flag false => "False"
  | NA => "nan"
  end.

(** The levels of a column: its sorted distinct values, missing ones left
    out ([dummy_na=False]). *)
Definition levels (values : list cell) : list cell :=
  unique cell_ltb (filter (fun c => negb (isna c)) values).

(** The indicator columns of one encoded column: one per level, named
    [<column>_<level>]. *)
Definition dummy_names (name : string) (lv : list cell) : list string :=
  map (fun l => (name ++ "_" ++ level_name l)%string) lv.

Definition dummy_cells (lv : list cell) (c : cell) : list cell :=
  map (fun l => Flag (cell_eqb l c)) lv.

(** The positions of the columns that are not encoded. *)
Definition kept_positions (encode cols : list string) : list nat :=
  flat_map (fun '(i, c) => if existsb (String.eqb c) encode then [] else [i])
           (combine (seq 0 (List.length cols)) cols).

(** [pd.get_dummies(df, columns=encode)]: the columns that are not encoded
    stay, in their order; the indicator columns of each encoded column
    follow, in the order of [encode]. *)
Definition get_dummies (df : DataFrame) (encode : list string) : Py.result DataFrame :=
  match missing_names encode (columns df) with
  | [] =>
      let kept := kept_positions encode (columns df) in
      let enc := map (fun n =>
                        let i := match index_of n (columns df) with
                                 | Some i => i | None => 0 end in
                        (n, i, levels (map (fun r => cell_at r i) (rows df))))
                     encode in
      Py.Ok {| columns :=
                 map (fun i => nth i (columns df) "") kept
                 ++ flat_map (fun '(n, _, lv) => dummy_names n lv) enc;
               rows :=
                 map (fun r =>
                        map (cell_at r) kept
                        ++ flat_map (fun '(_, i, lv) => dummy_cells lv (cell_at r i)) enc)
                     (rows df) |}
  | missing => Py.Raise (Py.KeyError missing)
  end.

End GetDummies.

End Frame.

(** ** train_model_advanced.py *)

Module Train.

Import Frame.

(** The metadata document written to [app/data/model_info.json]. *)
Record ModelInfo : Type := {
  feature_columns : list string;
  species_classes : list cell;
  accuracy : float
}.

(** The two files a run writes: [model.json] and [model_info.json]. *)
Record Artifact (Model : Type) : Type := {
  model_json : Model;
  model_info : ModelInfo
}.
Arguments model_json {Model} a.
Arguments model_info {Model} a.

(** The list literal of lines 21-24. *)
Definition feature_columns_literal : list string :=
  ["bill_length_mm"; "bill_depth_mm"; "flipper_length_mm"; "body_mass_g"; "year";
   "sex_female"; "sex_male"; "island_Biscoe"; "island_Dream"; "island_Torgersen"].

(** The library calls of the script whose code is not the repository's:
    they are taken as they come, each free to raise. *)
Record Libraries : Type := {
  Model : Type;
  float_str : float -> string;
  (** [train_test_split(X, y, test_size=, random_state=)] *)
  train_test_split :
    DataFrame -> list nat -> float -> Z ->
    Py.result (DataFrame * DataFrame * list nat * list nat);
  (** [xgb.XGBClassifier(objective=, random_state=, n_estimators=).fit(X, y)] *)
  XGBClassifier_fit :
    string -> Z -> Z -> DataFrame -> list nat -> Py.result Model;
  (** [model.score(X, y)] *)
  score : Model -> DataFrame -> list nat -> Py.result float
}.

Section Pipeline.

Variable lib : Libraries.

(** Lines 13-29: cleaning, encoding, label encoding and column selection.
    [penguins] is what [sns.load_dataset("penguins")] returned. *)
Definition prepare (penguins : DataFrame)
  : Py.result (DataFrame * list nat * list cell * list string) :=
  let df := dropna penguins in
  df_encoded <- get_dummies (float_str lib) df ["sex"; "island"] ;;
  let feature_columns := feature_columns_literal in
  species <- column df "species" ;;
  let '(classes_, y) := fit_transform species in
  X <- select df_encoded feature_columns ;;
  Py.Ok (X, y, classes_, feature_columns).

(** [train_advanced_model()], up to the two files it writes (the [print]
    calls and the creation of the directory are left out). *)
Definition train_advanced_model (penguins : DataFrame)
  : Py.result (Artifact (Model lib)) :=
  '(X, y, classes_, feature_columns) <- prepare penguins ;;
  '(X_train, X_test, y_train, y_test) <-
      train_test_split lib X y 0.2%float 42%Z ;;
  model <- XGBClassifier_fit lib "multi:softprob" 42%Z 100%Z X_train y_train ;;
  accuracy <- score lib model X_test y_test ;;
  let model_info :=
    {| feature_columns := feature_columns;
       species_classes := classes_;
       accuracy := accuracy |} in
  Py.Ok {| model_json := model; model_info := model_info |}.

(** The column names present after one-hot encoding the cleaned data:
    what an enumeration of the encoded frame would list. *)
Definition encoded_columns (penguins : DataFrame) : Py.result (list string) :=
  df_encoded <- get_dummies (float_str lib) (dropna penguins) ["sex"; "island"] ;;
  Py.Ok (columns df_encoded).

End Pipeline.

End Train.

(** ** Concrete frames and a stand-in for the libraries, for closed examples *)

Module Fixtures.

Import Frame Train.

(** The columns of the penguins data, in the order of the Palmer penguins
    table. *)
Definition penguin_columns : list string :=
  ["species"; "island"; "bill_length_mm"; "bill_depth_mm";
   "flipper_length_mm"; "body_mass_g"; "sex"; "year"].

Definition penguin (sp isl : string) (bl bd fl bm : float) (sx : string) (yr : float)
  : list cell :=
  [Str sp; Str isl; Num bl; Num bd; Num fl; Num bm; Str sx; Num yr].

(** A record whose measurements and sex were not recorded. *)
Definition unmeasured (sp isl : string) (yr : float) : list cell :=
  [Str sp; Str isl; NA; NA; NA; NA; NA; Num yr].

Definition adelie_1 := penguin "Adelie" "Torgersen" 39.1 18.7 181 3750 "male" 2007.
Definition adelie_2 := penguin "Adelie" "Biscoe" 37.8 18.3 174 3400 "female" 2007.
Definition chinstrap_1 := penguin "Chinstrap" "Dream" 46.5 17.9 192 3500 "female" 2007.
Definition gentoo_1 := penguin "Gentoo" "Biscoe" 46.1 13.2 211 4500 "female" 2007.

(** Three species on three islands, with one incomplete record. *)
Definition small_penguins : DataFrame :=
  {| columns := penguin_columns;
     rows := [adelie_1; unmeasured "Adelie" "Torgersen" 2007;
              chinstrap_1; gentoo_1; adelie_2] |}.



(** A fourth island besides the three the script's literal names. *)
Definition four_islands : DataFrame :=
  {| columns := penguin_columns;
     rows := [adelie_1; chinstrap_1; gentoo_1;
              penguin "Gentoo" "Anvers" 47.2 14.1 214 4900 "male" 2008] |}.

(** A stand-in for the libraries: the split keeps every record on both
    sides, the fit remembers the labels it was given, the score is 1. *)
Definition stub_lib : Libraries :=
  {| Model := list nat;
     float_str := fun _ => "";
     train_test_split := fun X y _ _ => Py.Ok (X, X, y, y);
     XGBClassifier_fit := fun _ _ _ _ y => Py.Ok y;
     score := fun _ _ _ => Py.Ok 1%float |}.

(** What the script writes for [small_penguins] with these stand-ins. *)
Definition small_artifact : Artifact (Model stub_lib) :=
  {| model_json := [0; 1; 2; 0];
     model_info :=
       {| feature_columns := feature_columns_literal;
          species_classes := [Str "Adelie"; Str "Chinstrap"; Str "Gentoo"];
          accuracy := 1%float |} |}.


End Fixtures.

(** ** More concrete values *)

Module MoreFixtures.

Import Frame Train Fixtures.

(** A frame of three records with their sex, and its encoding. *)
Definition sexes : DataFrame :=
  {| columns := ["bill_length_mm"; "sex"];
     rows := [[Num 39.1; Str "male"]; [Num 37.8; Str "female"];
              [Num 50.0; Str "male"]] |}.

Definition sexes_encoded : DataFrame :=
  {| columns := ["bill_length_mm"; "sex_female"; "sex_male"];
     rows := [[Num 39.1; Flag false; Flag true];
              [Num 37.8; Flag true; Flag false];
              [Num 50.0; Flag false; Flag true]] |}.

(** The feature matrix and the labels the script prepares from
    [small_penguins]: its four complete records, over the ten columns of
    the literal. *)
Definition small_X : DataFrame :=
  {| columns := feature_columns_literal;
     rows :=
       [[Num 39.1; Num 18.7; Num 181; Num 3750; Num 2007;
         Flag false; Flag true; Flag false; Flag false; Flag true];
        [Num 46.5; Num 17.9; Num 192; Num 3500; Num 2007;
         Flag true; Flag false; Flag false; Flag true; Flag false];
        [Num 46.1; Num 13.2; Num 211; Num 4500; Num 2007;
         Flag true; Flag false; Flag true; Flag false; Flag false];
        [Num 37.8; Num 18.3; Num 174; Num 3400; Num 2007;
         Flag true; Flag false; Flag true; Flag false; Flag false]] |}.

Definition small_y : list nat := [0; 1; 2; 0].

Definition small_classes : list cell :=
  [Str "Adelie"; Str "Chinstrap"; Str "Gentoo"].

(** A request whose bill measurements are not numbers. *)
Definition nan_bill : Main.PenguinFeatures :=
  {| Main.bill_length_mm := PrimFloat.nan; Main.bill_depth_mm := PrimFloat.nan;
     Main.flipper_length_mm := 181; Main.body_mass_g := 3750 |}.

End MoreFixtures.

(* ================================================================== *)
(** * Part II: properties                                              *)
(* ================================================================== *)

(** ** The order on strings *)

Module StringOrder.

Lemma ascii_compare_refl (a : ascii) : Ascii.compare a a = Eq.
Proof. unfold Ascii.compare. apply N.compare_refl. Qed.

Lemma ascii_compare_lt_trans (a b c : ascii) :
  Ascii.compare a b = Lt -> Ascii.compare b c = Lt -> Ascii.compare a c = Lt.
Proof.
  unfold Ascii.compare. rewrite !N.compare_lt_iff. apply N.lt_trans.
Qed.

Lemma compare_refl (s : string) : String.compare s s = Eq.
Proof.
  induction s as [|a s IH]; simpl; [reflexivity|].
  now rewrite ascii_compare_refl.
Qed.

Lemma compare_lt_trans (s t u : string) :
  String.compare s t = Lt -> String.compare t u = Lt -> String.compare s u = Lt.
Proof.
  revert t u. induction s as [|a s IH]; intros [|b t] [|c u]; simpl;
    try discriminate; try reflexivity.
  destruct (Ascii.compare a b) eqn:Eab; try discriminate.
  - apply Ascii.compare_eq_iff in Eab. subst b.
    destruct (Ascii.compare a c) eqn:Eac; try discriminate; try reflexivity.
    apply IH.
  - intros _. destruct (Ascii.compare b c) eqn:Ebc; try discriminate.
    + apply Ascii.compare_eq_iff in Ebc. subst c. now rewrite Eab.
    + intros _. now rewrite (ascii_compare_lt_trans _ _ _ Eab Ebc).
Qed.

Lemma ltb_irrefl (s : string) : String.ltb s s = false.
Proof. unfold String.ltb. now rewrite compare_refl. Qed.

Lemma ltb_trans (s t u : string) :
  String.ltb s t = true -> String.ltb t u = true -> String.ltb s u = true.
Proof.
  unfold String.ltb. intros Hst Htu.
  destruct (String.compare s t) eqn:Est; try discriminate.
  destruct (String.compare t u) eqn:Etu; try discriminate.
  now rewrite (compare_lt_trans _ _ _ Est Etu).
Qed.

Lemma ltb_trichotomy (s t : string) :
  String.ltb s t = false -> String.ltb t s = false -> t = s.
Proof.
  unfold String.ltb. rewrite (String.compare_antisym t s).
  destruct (String.compare s t) eqn:Est; simpl; try discriminate.
  intros _ _. symmetry. now apply String.compare_eq_iff.
Qed.

End StringOrder.

(** ** Sorted distinct values *)

Module UniqueFacts.

Import Frame.

Section Generic.

Context {A : Type} (ltb : A -> A -> bool).

Local Abbreviation lt := (fun x y : A => ltb x y = true).

Lemma insert_unique_incl (x z : A) (l : list A) :
  In z l -> In z (insert_unique ltb x l).
Proof.
  induction l as [|y l IH]; simpl; [tauto|].
  destruct (ltb x y); [simpl; tauto|].
  destruct (ltb y x); simpl; tauto.
Qed.

Lemma insert_unique_inv (x z : A) (l : list A) :
  In z (insert_unique ltb x l) -> z = x \/ In z l.
Proof.
  induction l as [|y l IH]; simpl.
  - intros [<-|[]]. now left.
  - destruct (ltb x y); [simpl; intuition auto|].
    destruct (ltb y x); simpl; intuition auto.
Qed.

(** A value that is comparable with every other one ends up in the list. *)
Lemma insert_unique_self (x : A) (l : list A) :
  (forall y, ltb x y = false -> ltb y x = false -> y = x) ->
  In x (insert_unique ltb x l).
Proof.
  intros Htri. induction l as [|y l IH]; simpl; [now left|].
  destruct (ltb x y) eqn:Exy; [now left|].
  destruct (ltb y x) eqn:Eyx; [now right|].
  left. now apply Htri.
Qed.

Lemma unique_inv (z : A) (l : list A) : In z (unique ltb l) -> In z l.
Proof.
  induction l as [|x l IH]; simpl; [tauto|].
  intros H. apply insert_unique_inv in H. destruct H as [->|H]; auto.
Qed.

Lemma unique_intro (z : A) (l : list A) :
  (forall y, ltb z y = false -> ltb y z = false -> y = z) ->
  In z l -> In z (unique ltb l).
Proof.
  intros Htri. induction l as [|x l IH]; simpl; [tauto|].
  intros [->|H].
  - now apply insert_unique_self.
  - apply insert_unique_incl. auto.
Qed.

Section StrictOrder.

Hypothesis ltb_irrefl : forall x, ltb x x = false.
Hypothesis ltb_trans : forall x y z, lt x y -> lt y z -> lt x z.
Hypothesis ltb_tri : forall x y, ltb x y = false -> ltb y x = false -> y = x.

Lemma insert_unique_sorted (x : A) (l : list A) :
  StronglySorted lt l -> StronglySorted lt (insert_unique ltb x l).
Proof.
  induction 1 as [|y l Hl IH Hy]; simpl.
  - repeat constructor.
  - destruct (ltb x y) eqn:Exy.
    + constructor; [now constructor|].
      constructor; [exact Exy|].
      eapply Forall_impl; [|exact Hy]. intros z Hz.
      now apply (ltb_trans x y z).
    + destruct (ltb y x) eqn:Eyx; [|now constructor].
      constructor; [exact IH|].
      apply Forall_forall. intros z Hz.
      apply insert_unique_inv in Hz. destruct Hz as [->|Hz]; [exact Eyx|].
      rewrite Forall_forall in Hy. now apply Hy.
Qed.

Lemma unique_sorted (l : list A) : StronglySorted lt (unique ltb l).
Proof.
  induction l as [|x l IH]; simpl; [constructor|].
  now apply insert_unique_sorted.
Qed.

Lemma In_unique (z : A) (l : list A) : In z (unique ltb l) <-> In z l.
Proof.
  split; [apply unique_inv|].
  apply unique_intro. intros y. apply ltb_tri.
Qed.

(** A strictly increasing list is determined by its elements. *)
Lemma sorted_ext (l1 l2 : list A) :
  StronglySorted lt l1 -> StronglySorted lt l2 ->
  (forall z, In z l1 <-> In z l2) -> l1 = l2.
Proof.
  intros H1. revert l2.
  induction H1 as [|x l1 Hl1 IH Hx]; intros l2 H2 Hin.
  - destruct l2 as [|y l2]; [reflexivity|].
    exfalso. apply (Hin y). now left.
  - destruct H2 as [|y l2 Hl2 Hy].
    + exfalso. apply (Hin x). now left.
    + rewrite Forall_forall in Hx, Hy.
      assert (Exy : x = y).
      { destruct (proj1 (Hin x) (or_introl eq_refl)) as [E|Hx2]; [now symmetry|].
        destruct (proj2 (Hin y) (or_introl eq_refl)) as [E|Hy1]; [exact E|].
        exfalso. specialize (Hx _ Hy1). specialize (Hy _ Hx2).
        pose proof (ltb_trans _ _ _ Hx Hy) as Hxx.
        cbv beta in Hxx. rewrite ltb_irrefl in Hxx. discriminate. }
      subst y. f_equal. apply IH; [exact Hl2|].
      intros z. split; intros Hz.
      * destruct (proj1 (Hin z) (or_intror Hz)) as [E|Hz2]; [|exact Hz2].
        exfalso. subst z. specialize (Hx _ Hz).
        cbv beta in Hx. rewrite ltb_irrefl in Hx. discriminate.
      * destruct (proj2 (Hin z) (or_intror Hz)) as [E|Hz1]; [|exact Hz1].
        exfalso. subst z. specialize (Hy _ Hz).
        cbv beta in Hy. rewrite ltb_irrefl in Hy. discriminate.
Qed.

Lemma unique_ext (l1 l2 : list A) :
  (forall z, In z l1 <-> In z l2) -> unique ltb l1 = unique ltb l2.
Proof.
  intros Hin. apply sorted_ext; try apply unique_sorted.
  intros z. now rewrite !In_unique.
Qed.

End StrictOrder.

End Generic.

(** On strings the order of cells is the order of strings. *)
Lemma insert_unique_Str (s : string) (l : list string) :
  insert_unique cell_ltb (Str s) (map Str l) =
  map Str (insert_unique String.ltb s l).
Proof.
  induction l as [|t l IH]; simpl; [reflexivity|].
  destruct (String.ltb s t); [reflexivity|].
  destruct (String.ltb t s); [|reflexivity].
  simpl. now rewrite IH.
Qed.

Lemma unique_Str (l : list string) :
  unique cell_ltb (map Str l) = map Str (unique String.ltb l).
Proof.
  induction l as [|s l IH]; simpl; [reflexivity|].
  now rewrite IH, insert_unique_Str.
Qed.


End UniqueFacts.

(** ** The [/predict] handler *)

Module ServingProperties.

Import Main.

(** The three responses of the mock chain. *)
Lemma try_body_cases (features : PenguinFeatures) :
  try_body features = Py.Ok (new_PredictionResponse "Gentoo" 0.85%float) \/
  try_body features = Py.Ok (new_PredictionResponse "Adelie" 0.78%float) \/
  try_body features = Py.Ok (new_PredictionResponse "Chinstrap" 0.82%float).
Proof.
  unfold try_body.
  destruct (45 <? bill_length_mm features)%float; [now left|].
  destruct (18 <? bill_depth_mm features)%float; [right; now left|right; now right].
Qed.

(** The [except] branch is never taken: the handler returns a response. *)
Lemma predict_returns (features : PenguinFeatures) :
  exists r, predict_penguin_species features = Returned r.
Proof.
  unfold predict_penguin_species.
  destruct (try_body_cases features) as [E|[E|E]]; rewrite E; eauto.
Qed.

(** The sample request is answered ("Adelie", 0.78). *)
Lemma predict_sample_data :
  predict_penguin_species sample_data =
  Returned (new_PredictionResponse "Adelie" 0.78%float).
Proof. reflexivity. Qed.

(** C1, counterexample: the sample request is a vector of 4 measurements, the
    schema written by the training script has 10 columns, and the handler
    returns a response all the same. *)
Lemma predict_returns_despite_length_mismatch :
  List.length (measurement_vector sample_data) = 4 /\
  List.length Train.feature_columns_literal = 10 /\
  post_predict {| declared := sample_data; undeclared := [] |} =
  Returned (new_PredictionResponse "Adelie" 0.78%float).
Proof. repeat split. Qed.

(** C1, as amended: the handler takes a record of exactly four measurements,
    consults no schema, and returns a response for every such record; there
    is no dimension check and no [DimensionMismatch]. *)
Theorem predict_has_no_dimension_check (features : PenguinFeatures) :
  List.length (measurement_vector features) = 4 /\
  exists r, predict_penguin_species features = Returned r.
Proof.
  split; [reflexivity|]. apply predict_returns.
Qed.

(** C2, counterexample: a request whose [sex] is "unknown" -- a category
    for which the training script's schema has no column -- is answered
    with a prediction. *)
Lemma unknown_sex_is_predicted :
  existsb (String.eqb "sex_unknown") Train.feature_columns_literal = false /\
  post_predict {| declared := sample_data;
                  undeclared := [("sex", JString "unknown")] |} =
  Returned (new_PredictionResponse "Adelie" 0.78%float).
Proof. split; reflexivity. Qed.

(** C2, as amended: the request model declares the four measurements only;
    whatever categorical value a request carries besides is never read, so
    the response is that of the same measurements sent alone, and it is a
    prediction. *)
Theorem undeclared_fields_are_ignored
    (features : PenguinFeatures) (others : list (string * json_scalar)) :
  post_predict {| declared := features; undeclared := others |} =
  post_predict {| declared := features; undeclared := [] |} /\
  exists r,
    post_predict {| declared := features; undeclared := others |} = Returned r.
Proof.
  split; [reflexivity|]. unfold post_predict; simpl. apply predict_returns.
Qed.



(** C9: two requests that agree on [bill_length_mm] and [bill_depth_mm]
    get the same response, whatever their [flipper_length_mm] and
    [body_mass_g]. *)
Theorem flipper_and_mass_do_not_matter (f1 f2 : PenguinFeatures) :
  bill_length_mm f1 = bill_length_mm f2 ->
  bill_depth_mm f1 = bill_depth_mm f2 ->
  predict_penguin_species f1 = predict_penguin_species f2.
Proof.
  intros Hl Hd. unfold predict_penguin_species, try_body.
  now rewrite Hl, Hd.
Qed.

(** The sample request and one with another flipper length and body mass. *)
Lemma flipper_and_mass_do_not_matter_witness :
  predict_penguin_species sample_data =
  predict_penguin_species
    {| bill_length_mm := 39.1; bill_depth_mm := 18.7;
       flipper_length_mm := 230; body_mass_g := 5700 |}.
Proof.
  apply flipper_and_mass_do_not_matter; reflexivity.
Defined.

(** C10: the response is ("Gentoo", 0.85) when [bill_length_mm > 45],
    otherwise ("Adelie", 0.78) when [bill_depth_mm > 18], otherwise
    ("Chinstrap", 0.82); the handler returns nothing else. *)
Theorem predict_is_three_way (features : PenguinFeatures) :
  exists r,
    predict_penguin_species features = Returned r /\
    (species r, confidence r) =
      (if (45 <? bill_length_mm features)%float then ("Gentoo", 0.85%float)
       else if (18 <? bill_depth_mm features)%float then ("Adelie", 0.78%float)
       else ("Chinstrap", 0.82%float)) /\
    ((species r, confidence r) = ("Gentoo", 0.85%float) \/
     (species r, confidence r) = ("Adelie", 0.78%float) \/
     (species r, confidence r) = ("Chinstrap", 0.82%float)).
Proof.
  unfold predict_penguin_species, try_body.
  destruct (45 <? bill_length_mm features)%float;
    [|destruct (18 <? bill_depth_mm features)%float];
    eexists; (split; [reflexivity|]); simpl; auto.
Qed.

End ServingProperties.

(** ** The training script *)

Module TrainingProperties.

Import Frame Train Fixtures.

(** *** Inversion of the script's steps *)

Lemma bind_Ok {A B : Type} (m : Py.result A) (k : A -> Py.result B) (b : B) :
  Py.bind m k = Py.Ok b -> exists a, m = Py.Ok a /\ k a = Py.Ok b.
Proof.
  destruct m as [a|e]; simpl; [eauto|discriminate].
Qed.

Lemma index_of_In (name : string) (cols : list string) (i : nat) :
  index_of name cols = Some i -> In name cols.
Proof.
  revert i. induction cols as [|c cols IH]; simpl; intros i; [discriminate|].
  destruct (String.eqb c name) eqn:E.
  - apply String.eqb_eq in E. now left.
  - destruct (index_of name cols) as [j|]; simpl; [|discriminate].
    intros _. right. now apply (IH j).
Qed.

Lemma index_of_lt (name : string) (cols : list string) (i : nat) :
  index_of name cols = Some i -> i < List.length cols.
Proof.
  revert i. induction cols as [|c cols IH]; simpl; intros i; [discriminate|].
  destruct (String.eqb c name).
  - intros [= <-]. lia.
  - destruct (index_of name cols) as [j|]; simpl; [|discriminate].
    intros [= <-]. specialize (IH j eq_refl). lia.
Qed.

Lemma missing_names_nil (names cols : list string) :
  missing_names names cols = [] -> incl names cols.
Proof.
  unfold missing_names. intros Hnil n Hn.
  destruct (index_of n cols) as [i|] eqn:E; [now apply (index_of_In _ _ i)|].
  assert (Hin : In n (filter
    (fun n => match index_of n cols with Some _ => false | None => true end) names)).
  { apply filter_In. split; [exact Hn|]. now rewrite E. }
  rewrite Hnil in Hin. destruct Hin.
Qed.

Lemma select_Ok (df X : DataFrame) (names : list string) :
  select df names = Py.Ok X -> columns X = names /\ incl names (columns df).
Proof.
  unfold select.
  destruct (missing_names names (columns df)) eqn:E; [|discriminate].
  intros [= <-]. split; [reflexivity|]. now apply missing_names_nil.
Qed.

Lemma prepare_Ok_inv (lib : Libraries) (df X : DataFrame)
    (y : list nat) (cl : list cell) (cols : list string) :
  prepare lib df = Py.Ok (X, y, cl, cols) ->
  exists enc sp,
    get_dummies (float_str lib) (dropna df) ["sex"; "island"] = Py.Ok enc /\
    column (dropna df) "species" = Py.Ok sp /\
    cl = unique cell_ltb sp /\
    y = map (class_index cl) sp /\
    select enc feature_columns_literal = Py.Ok X /\
    cols = feature_columns_literal.
Proof.
  unfold prepare. intros H.
  apply bind_Ok in H. destruct H as (enc & Henc & H).
  apply bind_Ok in H. destruct H as (sp & Hsp & H).
  unfold fit_transform in H.
  apply bind_Ok in H. destruct H as (X' & HX & H).
  injection H as <- <- <- <-.
  exists enc, sp. repeat split; assumption.
Qed.

Lemma train_Ok_inv (lib : Libraries) (df : DataFrame) (a : Artifact (Model lib)) :
  train_advanced_model lib df = Py.Ok a ->
  exists X y cl cols X_train X_test y_train y_test acc,
    prepare lib df = Py.Ok (X, y, cl, cols) /\
    train_test_split lib X y 0.2%float 42%Z =
      Py.Ok (X_train, X_test, y_train, y_test) /\
    XGBClassifier_fit lib "multi:softprob" 42%Z 100%Z X_train y_train =
      Py.Ok (model_json a) /\
    score lib (model_json a) X_test y_test = Py.Ok acc /\
    model_info a =
      {| feature_columns := cols; species_classes := cl; accuracy := acc |}.
Proof.
  unfold train_advanced_model. intros H.
  apply bind_Ok in H. destruct H as ([[[X y] cl] cols] & Hprep & H).
  apply bind_Ok in H. destruct H as ([[[Xtr Xte] ytr] yte] & Hsplit & H).
  apply bind_Ok in H. destruct H as (m & Hfit & H).
  apply bind_Ok in H. destruct H as (acc & Hscore & H).
  injection H as <-. simpl.
  exists X, y, cl, cols, Xtr, Xte, ytr, yte, acc. repeat split; assumption.
Qed.

(** The script reads its input through [dropna] only. *)
Lemma train_reads_cleaned_data (lib : Libraries) (df1 df2 : DataFrame) :
  dropna df1 = dropna df2 ->
  train_advanced_model lib df1 = train_advanced_model lib df2.
Proof.
  intros H. unfold train_advanced_model, prepare. now rewrite H.
Qed.

(** *** Cleaning *)

Lemma complete_false (ncols i : nat) (r : list cell) :
  i < ncols -> isna (cell_at r i) = true -> complete ncols r = false.
Proof.
  intros Hi Hna. unfold complete.
  destruct (forallb _ _) eqn:E; [|reflexivity].
  rewrite forallb_forall in E.
  specialize (E i). rewrite Hna in E. simpl in E.
  symmetry. apply E. apply in_seq. lia.
Qed.

Lemma complete_true (ncols : nat) (r : list cell) :
  complete ncols r = true ->
  forall i, i < ncols -> isna (cell_at r i) = false.
Proof.
  unfold complete. rewrite forallb_forall. intros H i Hi.
  apply negb_true_iff. apply H. apply in_seq. lia.
Qed.

Lemma dropna_drops (cols : list string) (before after : list (list cell))
    (r : list cell) :
  complete (List.length cols) r = false ->
  dropna {| columns := cols; rows := before ++ r :: after |} =
  dropna {| columns := cols; rows := before ++ after |}.
Proof.
  intros Hr. unfold dropna. simpl. f_equal.
  rewrite !filter_app. simpl. now rewrite Hr.
Qed.

(** *** Label encoding *)

Lemma class_index_Str (cl : list string) (s : string) :
  In s cl ->
  nth_error (map Str cl) (class_index (map Str cl) (Str s)) = Some (Str s).
Proof.
  induction cl as [|k cl IH]; simpl; [tauto|].
  destruct (String.eqb k s) eqn:E.
  - apply String.eqb_eq in E. now subst k.
  - intros [->|H]; [now rewrite String.eqb_refl in E|]. simpl. auto.
Qed.


(** *** The schema *)

(** C3, counterexample: with a fourth island in the data, the encoded frame
    has a column [island_Anvers] (and the label column [species]); the
    schema the script writes is its ten-name literal all the same. *)
Lemma written_schema_is_not_the_encoded_columns :
  encoded_columns stub_lib four_islands =
  Py.Ok ["species"; "bill_length_mm"; "bill_depth_mm"; "flipper_length_mm";
         "body_mass_g"; "year"; "sex_female"; "sex_male"; "island_Anvers";
         "island_Biscoe"; "island_Dream"; "island_Torgersen"] /\
  train_advanced_model stub_lib four_islands =
  Py.Ok {| model_json := [0; 1; 2; 2];
           model_info :=
             {| feature_columns :=
                  ["bill_length_mm"; "bill_depth_mm"; "flipper_length_mm";
                   "body_mass_g"; "year"; "sex_female"; "sex_male";
                   "island_Biscoe"; "island_Dream"; "island_Torgersen"];
                species_classes := [Str "Adelie"; Str "Chinstrap"; Str "Gentoo"];
                accuracy := 1%float |} |}.
Proof. split; reflexivity. Qed.

(** C3, as amended: whatever the data, the schema a successful run writes is
    the ten-name literal of the script; the encoded frame is only asked for
    these columns, each of which it then has. *)
Theorem written_schema_is_the_literal
    (lib : Libraries) (df : DataFrame) (a : Artifact (Model lib)) :
  train_advanced_model lib df = Py.Ok a ->
  feature_columns (model_info a) = feature_columns_literal /\
  exists encoded,
    encoded_columns lib df = Py.Ok encoded /\
    incl feature_columns_literal encoded.
Proof.
  intros H. apply train_Ok_inv in H.
  destruct H as (X & y & cl & cols & Xtr & Xte & ytr & yte & acc
                 & Hprep & _ & _ & _ & Hinfo).
  apply prepare_Ok_inv in Hprep.
  destruct Hprep as (enc & sp & Henc & _ & _ & _ & HX & ->).
  rewrite Hinfo. simpl. split; [reflexivity|].
  exists (columns enc). split.
  - unfold encoded_columns. now rewrite Henc.
  - now apply (select_Ok enc X).
Qed.

(** The run on [small_penguins]. *)
Lemma written_schema_is_the_literal_witness :
  feature_columns (model_info small_artifact) = feature_columns_literal /\
  exists encoded,
    encoded_columns stub_lib small_penguins = Py.Ok encoded /\
    incl feature_columns_literal encoded.
Proof.
  apply (written_schema_is_the_literal stub_lib small_penguins small_artifact).
  reflexivity.
Defined.

(** *** Classes *)




(** *** Failures *)



(** *** Incomplete records *)

(** C7: a record with a missing value in a column of the frame -- a feature
    or label column in particular -- is not among the cleaned records, and
    the run is the run on the data without it: same outcome, same model,
    schema and labels.  The records kept are records of the raw data as they
    were, none with a missing value, so nothing is filled in. *)
Theorem incomplete_records_are_excluded
    (lib : Libraries) (cols : list string) (before after : list (list cell))
    (r : list cell) (name : string) (i : nat) :
  index_of name cols = Some i ->
  isna (cell_at r i) = true ->
  let raw := {| columns := cols; rows := before ++ r :: after |} in
  let rest := {| columns := cols; rows := before ++ after |} in
  ~ In r (rows (dropna raw)) /\
  dropna raw = dropna rest /\
  train_advanced_model lib raw = train_advanced_model lib rest /\
  Forall (fun kept =>
            In kept (before ++ after) /\
            forall j, j < List.length cols -> isna (cell_at kept j) = false)
         (rows (dropna raw)).
Proof.
  intros Hname Hna raw rest.
  assert (Hr : complete (List.length cols) r = false).
  { apply (complete_false _ i); [now apply (index_of_lt name)|exact Hna]. }
  assert (Hdrop : dropna raw = dropna rest) by now apply dropna_drops.
  repeat split.
  - unfold dropna; simpl. rewrite filter_In. intros [_ Hc].
    rewrite Hr in Hc. discriminate.
  - exact Hdrop.
  - now apply train_reads_cleaned_data.
  - rewrite Hdrop. apply Forall_forall. intros kept Hk.
    unfold dropna in Hk; simpl in Hk. apply filter_In in Hk.
    destruct Hk as [Hin Hc]. split; [exact Hin|].
    now apply complete_true.
Qed.

(** The unmeasured record of [small_penguins], whose [sex] is missing. *)
Lemma incomplete_records_are_excluded_witness :
  let r := unmeasured "Adelie" "Torgersen" 2007 in
  let after := [chinstrap_1; gentoo_1; adelie_2] in
  let raw := {| columns := penguin_columns; rows := [adelie_1] ++ r :: after |} in
  let rest := {| columns := penguin_columns; rows := [adelie_1] ++ after |} in
  ~ In r (rows (dropna raw)) /\
  dropna raw = dropna rest /\
  train_advanced_model stub_lib raw = train_advanced_model stub_lib rest /\
  Forall (fun kept =>
            In kept ([adelie_1] ++ after) /\
            forall j, j < List.length penguin_columns ->
                      isna (cell_at kept j) = false)
         (rows (dropna raw)).
Proof.
  apply (incomplete_records_are_excluded stub_lib penguin_columns
           [adelie_1] [chinstrap_1; gentoo_1; adelie_2]
           (unmeasured "Adelie" "Torgersen" 2007) "sex" 6);
    reflexivity.
Defined.

(** *** Label indices *)



(** *** The sample request against a trained artifact *)



End TrainingProperties.

(** ** Frames: cleaning, selection and one-hot encoding *)

Module FrameProperties.

Import Frame Fixtures.

(** *** Reading cells *)

Lemma cell_at_map (r : list cell) (ps : list nat) (k i : nat) :
  nth_error ps k = Some i ->
  cell_at (map (cell_at r) ps) k = cell_at r i.
Proof.
  intros H. unfold cell_at at 1.
  apply nth_error_nth. rewrite nth_error_map, H. reflexivity.
Qed.

Lemma cell_at_app_l (l1 l2 : list cell) (k : nat) :
  k < List.length l1 -> cell_at (l1 ++ l2) k = cell_at l1 k.
Proof. intros H. unfold cell_at. now apply app_nth1. Qed.

Lemma cell_at_app_r (l1 l2 : list cell) (k : nat) :
  cell_at (l1 ++ l2) (List.length l1 + k) = cell_at l2 k.
Proof. unfold cell_at. apply app_nth2_plus. Qed.

(** *** Looking up names *)

Lemma index_of_app_l (n : string) (l1 l2 : list string) (k : nat) :
  index_of n l1 = Some k -> index_of n (l1 ++ l2) = Some k.
Proof.
  revert k. induction l1 as [|c l1 IH]; simpl; intros k; [discriminate|].
  destruct (String.eqb c n); [auto|].
  destruct (index_of n l1) as [j|]; simpl; [|discriminate].
  intros [= <-]. now rewrite (IH j eq_refl).
Qed.


Lemma index_of_app_r (n : string) (l1 l2 : list string) :
  ~ In n l1 ->
  index_of n (l1 ++ l2) =
  option_map (fun k => List.length l1 + k) (index_of n l2).
Proof.
  induction l1 as [|c l1 IH]; simpl; intros H.
  - now destruct (index_of n l2).
  - destruct (String.eqb c n) eqn:E.
    + apply String.eqb_eq in E. tauto.
    + rewrite IH by tauto. now destruct (index_of n l2).
Qed.

Lemma index_of_Some_of_In (n : string) (l : list string) :
  In n l -> exists k, index_of n l = Some k.
Proof.
  induction l as [|c l IH]; simpl; [tauto|].
  intros H. destruct (String.eqb c n) eqn:E; [eauto|].
  destruct H as [->|H]; [now rewrite String.eqb_refl in E|].
  destruct (IH H) as [k ->]. simpl. eauto.
Qed.

Lemma index_of_nth_error (n : string) (l : list string) (k : nat) :
  index_of n l = Some k -> nth_error l k = Some n.
Proof.
  revert k. induction l as [|c l IH]; simpl; intros k; [discriminate|].
  destruct (String.eqb c n) eqn:E.
  - intros [= <-]. apply String.eqb_eq in E. now subst.
  - destruct (index_of n l) as [j|]; simpl; [|discriminate].
    intros [= <-]. simpl. now apply IH.
Qed.

(** *** Cleaning *)

Lemma filter_idem {A : Type} (f : A -> bool) (l : list A) :
  filter f (filter f l) = filter f l.
Proof.
  induction l as [|x l IH]; simpl; [reflexivity|].
  destruct (f x) eqn:E; simpl; [|exact IH]. now rewrite E, IH.
Qed.

Lemma filter_all {A : Type} (f : A -> bool) (l : list A) :
  (forall x, In x l -> f x = true) -> filter f l = l.
Proof.
  induction l as [|x l IH]; simpl; intros H; [reflexivity|].
  rewrite (H x) by now left. f_equal. apply IH. intros y Hy. apply H. now right.
Qed.

(** [dropna] keeps the header, never adds a record, cleans once and for all,
    and leaves a frame whose records are all complete as it is. *)
Theorem dropna_cleans_once (df : DataFrame) :
  columns (dropna df) = columns df /\
  List.length (rows (dropna df)) <= List.length (rows df) /\
  dropna (dropna df) = dropna df /\
  ((forall r, In r (rows df) ->
      forall i, i < List.length (columns df) -> isna (cell_at r i) = false) ->
   dropna df = df).
Proof.
  unfold dropna; simpl. repeat split.
  - apply filter_length_le.
  - f_equal. apply filter_idem.
  - intros H. destruct df as [cols rs]; simpl in *. f_equal.
    apply filter_all. intros r Hr. unfold complete. apply forallb_forall.
    intros i Hi. apply in_seq in Hi. rewrite (H r Hr i) by lia. reflexivity.
Qed.

(** *** Selection *)

Lemma positions_nth_error (names cols : list string) (n : string) (k : nat) :
  missing_names names cols = [] ->
  index_of n names = Some k ->
  exists i, index_of n cols = Some i /\
            nth_error (positions names cols) k = Some i.
Proof.
  unfold missing_names, positions.
  revert k. induction names as [|c names IH]; simpl; intros k Hmiss;
    [discriminate|].
  destruct (index_of c cols) as [ic|] eqn:Ec; [|discriminate].
  destruct (String.eqb c n) eqn:E.
  - intros [= <-]. apply String.eqb_eq in E. subst c. exists ic. now split.
  - destruct (index_of n names) as [j|] eqn:Ej; simpl; [|discriminate].
    intros [= <-]. destruct (IH j Hmiss eq_refl) as (i & Hi & Hnth).
    exists i. now split.
Qed.

Lemma positions_length (names cols : list string) :
  missing_names names cols = [] ->
  List.length (positions names cols) = List.length names.
Proof.
  unfold missing_names, positions.
  induction names as [|c names IH]; simpl; [reflexivity|].
  destruct (index_of c cols); [|discriminate].
  intros H. simpl. now rewrite IH.
Qed.

(** Reading a column of a selection is reading it off the frame selected
    from; the selection has the records of the frame, each cut to the
    columns asked for. *)
Theorem select_keeps_columns (df X : DataFrame) (names : list string) :
  select df names = Py.Ok X ->
  columns X = names /\
  List.length (rows X) = List.length (rows df) /\
  Forall (fun r => List.length r = List.length names) (rows X) /\
  forall n, In n names -> column X n = column df n.
Proof.
  unfold select.
  destruct (missing_names names (columns df)) eqn:Hmiss; [|discriminate].
  intros [= <-]. simpl. repeat split.
  - apply length_map.
  - apply Forall_forall. intros r Hr. apply in_map_iff in Hr.
    destruct Hr as (r0 & <- & _). rewrite length_map.
    now apply positions_length.
  - intros n Hn. unfold column; simpl.
    destruct (index_of_Some_of_In _ _ Hn) as [k Hk]. rewrite Hk.
    destruct (positions_nth_error _ _ _ _ Hmiss Hk) as (i & Hi & Hnth).
    rewrite Hi. f_equal. rewrite map_map.
    apply map_ext. intros r. now apply cell_at_map.
Qed.

(** The eight columns of the small frame, cut to two and turned around. *)
Lemma select_keeps_columns_witness :
  let X := {| columns := ["year"; "species"];
              rows := [[Num 2007; Str "Adelie"]; [Num 2007; Str "Adelie"];
                       [Num 2007; Str "Chinstrap"]; [Num 2007; Str "Gentoo"];
                       [Num 2007; Str "Adelie"]] |} in
  columns X = ["year"; "species"] /\
  List.length (rows X) = List.length (rows small_penguins) /\
  Forall (fun r => List.length r = List.length ["year"; "species"]) (rows X) /\
  forall n, In n ["year"; "species"] -> column X n = column small_penguins n.
Proof.
  apply (select_keeps_columns small_penguins _ ["year"; "species"]).
  reflexivity.
Defined.

(** *** One-hot encoding *)

(** The indicator block of the encoded columns is as wide in every record
    as in the header. *)
Lemma dummy_blocks_length (f : float -> string) (r : list cell)
    (enc : list (string * nat * list cell)) :
  List.length (flat_map (fun '(_, i, lv) => dummy_cells lv (cell_at r i)) enc) =
  List.length (flat_map (fun '(n, _, lv) => dummy_names f n lv) enc).
Proof.
  induction enc as [|[[n i] lv] enc IH]; simpl; [reflexivity|].
  rewrite !length_app, IH. unfold dummy_cells, dummy_names.
  now rewrite !length_map.
Qed.

(** Whatever the shape of the frame encoded, every record of the encoded
    frame has one cell per column of its header, and there are as many
    records as before. *)
Theorem get_dummies_is_rectangular
    (f : float -> string) (df out : DataFrame) (encode : list string) :
  get_dummies f df encode = Py.Ok out ->
  List.length (rows out) = List.length (rows df) /\
  Forall (fun r => List.length r = List.length (columns out)) (rows out).
Proof.
  unfold get_dummies.
  destruct (missing_names encode (columns df)); [|discriminate].
  intros [= <-]. simpl. split; [apply length_map|].
  apply Forall_forall. intros r Hr. apply in_map_iff in Hr.
  destruct Hr as (r0 & <- & _).
  rewrite !length_app, !length_map. f_equal. apply dummy_blocks_length.
Qed.

(** The frame with an incomplete record, encoded as the script encodes. *)
Lemma get_dummies_is_rectangular_witness :
  let out := {| columns := ["species"; "bill_length_mm"; "sex_male"];
                rows := [[Str "Adelie"; Num 39.1; Flag true];
                         [Str "Adelie"; NA; Flag false]] |} in
  List.length (rows out) = 2 /\
  Forall (fun r => List.length r = List.length (columns out)) (rows out).
Proof.
  apply (get_dummies_is_rectangular (fun _ => "")
           {| columns := ["species"; "bill_length_mm"; "sex"];
              rows := [[Str "Adelie"; Num 39.1; Str "male"];
                       [Str "Adelie"]] |}
           _ ["sex"]).
  reflexivity.
Defined.

(** The columns that are not encoded, by name and by position. *)
Lemma kept_names_filter (encode pre cols : list string) :
  map (fun j => nth j (pre ++ cols) "")
      (flat_map (fun '(i, c) => if existsb (String.eqb c) encode then [] else [i])
                (combine (seq (List.length pre) (List.length cols)) cols)) =
  filter (fun c => negb (existsb (String.eqb c) encode)) cols.
Proof.
  revert pre. induction cols as [|c cols IH]; intros pre; simpl; [reflexivity|].
  specialize (IH (pre ++ [c])).
  rewrite <- app_assoc, length_app in IH. simpl in IH.
  rewrite Nat.add_1_r in IH.
  destruct (existsb (String.eqb c) encode); simpl.
  - exact IH.
  - rewrite IH. f_equal. apply nth_middle.
Qed.

Lemma kept_positions_nth_error (encode cols : list string) (s i : nat)
    (n : string) :
  index_of n cols = Some i ->
  existsb (String.eqb n) encode = false ->
  exists k,
    index_of n (filter (fun c => negb (existsb (String.eqb c) encode)) cols)
      = Some k /\
    nth_error
      (flat_map (fun '(i, c) => if existsb (String.eqb c) encode then [] else [i])
                (combine (seq s (List.length cols)) cols)) k = Some (s + i).
Proof.
  intros Hi Hn. revert s i Hi.
  induction cols as [|c cols IH]; simpl; intros s i; [discriminate|].
  destruct (String.eqb c n) eqn:E.
  - intros [= <-]. apply String.eqb_eq in E. subst c. rewrite Hn. simpl.
    rewrite String.eqb_refl. exists 0. split; [reflexivity|].
    simpl. now rewrite Nat.add_0_r.
  - destruct (index_of n cols) as [j|] eqn:Ej; simpl; [|discriminate].
    intros [= <-]. destruct (IH (S s) j eq_refl) as (k & Hk & Hnth).
    rewrite Nat.add_succ_r. simpl in Hnth.
    destruct (existsb (String.eqb c) encode); simpl.
    + exists k. now split.
    + rewrite E, Hk. exists (S k). now split.
Qed.

(** A column that is not encoded comes out of the encoding as it went in. *)
Theorem get_dummies_keeps_other_columns
    (f : float -> string) (df out : DataFrame) (encode : list string)
    (n : string) (i : nat) :
  get_dummies f df encode = Py.Ok out ->
  index_of n (columns df) = Some i ->
  existsb (String.eqb n) encode = false ->
  column out n = column df n.
Proof.
  unfold get_dummies.
  destruct (missing_names encode (columns df)); [|discriminate].
  intros [= <-] Hi Hn. unfold column; simpl. rewrite Hi.
  unfold kept_positions.
  destruct (kept_positions_nth_error encode (columns df) 0 i n Hi Hn)
    as (k & Hk & Hnth).
  assert (HK :
    map (fun j => nth j (columns df) "")
        (flat_map (fun '(i, c) => if existsb (String.eqb c) encode then [] else [i])
                  (combine (seq 0 (List.length (columns df))) (columns df))) =
    filter (fun c => negb (existsb (String.eqb c) encode)) (columns df))
    by exact (kept_names_filter encode [] (columns df)).
  rewrite HK, (index_of_app_l _ _ _ _ Hk). f_equal.
  rewrite map_map. apply map_ext. intros r.
  assert (Hlt : k < List.length
    (flat_map (fun '(i, c) => if existsb (String.eqb c) encode then [] else [i])
              (combine (seq 0 (List.length (columns df))) (columns df)))).
  { apply nth_error_Some. rewrite Hnth. discriminate. }
  rewrite cell_at_app_l by now rewrite length_map.
  now apply cell_at_map.
Qed.

(** The bill lengths of the small frame. *)
Lemma get_dummies_keeps_other_columns_witness :
  column
    {| columns := ["bill_length_mm"; "sex_male"];
       rows := [[Num 39.1; Flag true]; [NA; Flag false]] |}
    "bill_length_mm" =
  column
    {| columns := ["bill_length_mm"; "sex"];
       rows := [[Num 39.1; Str "male"]; [NA; NA]] |}
    "bill_length_mm".
Proof.
  apply (get_dummies_keeps_other_columns (fun _ => "") _ _ ["sex"] _ 0);
    reflexivity.
Defined.

Lemma nodup_index_of (l : list string) (p : nat) (n : string) :
  NoDup l -> nth_error l p = Some n -> index_of n l = Some p.
Proof.
  intros Hnd. revert p. induction Hnd as [|c l Hc Hnd IH]; intros p.
  - destruct p; discriminate.
  - destruct p as [|p]; simpl.
    + intros [= ->]. now rewrite String.eqb_refl.
    + intros Hp. destruct (String.eqb c n) eqn:E.
      * apply String.eqb_eq in E. subst c. exfalso. apply Hc.
        now apply nth_error_In with p.
      * now rewrite (IH p Hp).
Qed.

Lemma nth_error_app_plus {A : Type} (l1 l2 : list A) (k : nat) :
  nth_error (l1 ++ l2) (List.length l1 + k) = nth_error l2 k.
Proof.
  rewrite nth_error_app2 by lia. f_equal. lia.
Qed.

(** In the block of an encoded column, the indicator of a level is set in
    exactly the records that hold this level: when the names of the encoded
    frame are distinct, its column [<column>_<level>] reads [True] where the
    column encoded reads the level, and [False] elsewhere. *)
Theorem get_dummies_indicator
    (f : float -> string) (df out : DataFrame) (encode : list string)
    (c : string) (values : list cell) (l : cell) :
  get_dummies f df encode = Py.Ok out ->
  NoDup (columns out) ->
  In c encode ->
  column df c = Py.Ok values ->
  In l (levels values) ->
  column out (c ++ "_" ++ level_name f l)%string =
  Py.Ok (map (fun v => Flag (cell_eqb l v)) values).
Proof.
  unfold get_dummies.
  destruct (missing_names encode (columns df)); [|discriminate].
  intros [= <-] Hnd Hc Hcol Hl.
  unfold column in Hcol.
  destruct (index_of c (columns df)) as [i|] eqn:Hi; [|discriminate].
  injection Hcol as <-.
  apply in_split in Hc. destruct Hc as (e1 & e2 & ->).
  apply In_nth_error in Hl. destruct Hl as [k Hk].
  unfold column. cbn [columns rows] in *.
  rewrite map_app in *. cbn [map] in *. rewrite Hi in *.
  rewrite flat_map_app in *. cbn [flat_map] in *.
  set (lv := levels (map (fun r => cell_at r i) (rows df))) in *.
  set (g := fun n : string =>
              (n, match index_of n (columns df) with Some i => i | None => 0 end,
               levels (map (fun r =>
                 cell_at r (match index_of n (columns df) with
                            | Some i => i | None => 0 end)) (rows df)))) in *.
  set (K := map (fun j => nth j (columns df) "")
                (kept_positions (e1 ++ c :: e2) (columns df))) in *.
  set (N1 := flat_map (fun '(n, _, lv) => dummy_names f n lv) (map g e1)) in *.
  set (N2 := flat_map (fun '(n, _, lv) => dummy_names f n lv) (map g e2)) in *.
  assert (Hp : nth_error (K ++ N1 ++ dummy_names f c lv ++ N2)
                 (List.length K + (List.length N1 + k)) =
               Some (c ++ "_" ++ level_name f l)%string).
  { rewrite !nth_error_app_plus.
    rewrite nth_error_app1.
    - unfold dummy_names. now rewrite nth_error_map, Hk.
    - unfold dummy_names. rewrite length_map.
      apply nth_error_Some. rewrite Hk. discriminate. }
  rewrite (nodup_index_of _ _ _ Hnd Hp). f_equal.
  rewrite !map_map. apply map_ext. intros r.
  rewrite flat_map_app. cbn [flat_map].
  replace (List.length K) with
    (List.length (map (cell_at r) (kept_positions (e1 ++ c :: e2) (columns df))))
    by (unfold K; now rewrite !length_map).
  rewrite cell_at_app_r.
  replace (List.length N1) with
    (List.length (flat_map (fun '(_, i, lv) => dummy_cells lv (cell_at r i))
                           (map g e1)))
    by apply dummy_blocks_length.
  rewrite cell_at_app_r.
  rewrite cell_at_app_l.
  - unfold cell_at at 1, dummy_cells. apply nth_error_nth.
    now rewrite nth_error_map, Hk.
  - unfold dummy_cells. rewrite length_map.
    apply nth_error_Some. rewrite Hk. discriminate.
Qed.

(** The [sex_female] column of the three-record frame. *)
Lemma get_dummies_indicator_witness :
  column MoreFixtures.sexes_encoded "sex_female" =
  Py.Ok [Flag false; Flag true; Flag false].
Proof.
  apply (get_dummies_indicator (fun _ => "") MoreFixtures.sexes
           MoreFixtures.sexes_encoded ["sex"] "sex"
           [Str "male"; Str "female"; Str "male"] (Str "female")).
  - reflexivity.
  - repeat constructor; simpl; intuition discriminate.
  - now left.
  - reflexivity.
  - now left.
Defined.

End FrameProperties.

(** ** What the script hands to the libraries *)

Module PipelineProperties.

Import Frame Train Fixtures MoreFixtures.

(** None of the names of the literal is a column the script encodes. *)
Lemma literal_names_are_not_encoded (n : string) :
  In n feature_columns_literal ->
  existsb (String.eqb n) ["sex"; "island"] = false.
Proof.
  unfold feature_columns_literal. simpl.
  intros H. repeat (destruct H as [<-|H]; [reflexivity|]). destruct H.
Qed.



(** A column of the data that the literal names reaches the feature matrix
    unchanged: the measurements and the year of the complete records are
    what the model is given. *)
Theorem measurements_reach_the_matrix
    (lib : Libraries) (df X : DataFrame) (y : list nat) (cl : list cell)
    (cols : list string) (n : string) (i : nat) :
  prepare lib df = Py.Ok (X, y, cl, cols) ->
  In n feature_columns_literal ->
  index_of n (columns df) = Some i ->
  column X n = column (dropna df) n.
Proof.
  intros H Hn Hi. apply TrainingProperties.prepare_Ok_inv in H.
  destruct H as (enc & sp & Henc & _ & _ & _ & HX & _).
  apply FrameProperties.select_keeps_columns in HX.
  destruct HX as (_ & _ & _ & HX). rewrite (HX n Hn).
  apply (FrameProperties.get_dummies_keeps_other_columns _ _ _ _ n i Henc).
  - exact Hi.
  - now apply literal_names_are_not_encoded.
Qed.

(** The bill lengths of the complete records of [small_penguins]. *)
Lemma measurements_reach_the_matrix_witness :
  column small_X "bill_length_mm" =
  column (dropna small_penguins) "bill_length_mm".
Proof.
  apply (measurements_reach_the_matrix stub_lib small_penguins small_X small_y
           small_classes feature_columns_literal "bill_length_mm" 2);
    [reflexivity| |reflexivity].
  now left.
Defined.

(** An indicator column of the literal, in the feature matrix, is set in
    exactly the complete records that hold its level, as long as the names
    of the encoded frame are distinct. *)
Theorem indicators_reach_the_matrix
    (lib : Libraries) (df X : DataFrame) (y : list nat) (cl : list cell)
    (cols names : list string) (c : string) (values : list cell) (l : cell) :
  prepare lib df = Py.Ok (X, y, cl, cols) ->
  encoded_columns lib df = Py.Ok names ->
  NoDup names ->
  In c ["sex"; "island"] ->
  column (dropna df) c = Py.Ok values ->
  In l (levels values) ->
  In (c ++ "_" ++ level_name (float_str lib) l)%string feature_columns_literal ->
  column X (c ++ "_" ++ level_name (float_str lib) l)%string =
  Py.Ok (map (fun v => Flag (cell_eqb l v)) values).
Proof.
  intros H Hnames Hnd Hc Hvalues Hl Hlit.
  apply TrainingProperties.prepare_Ok_inv in H.
  destruct H as (enc & sp & Henc & _ & _ & _ & HX & _).
  unfold encoded_columns in Hnames. rewrite Henc in Hnames.
  injection Hnames as <-.
  apply FrameProperties.select_keeps_columns in HX.
  destruct HX as (_ & _ & _ & HX). rewrite (HX _ Hlit).
  now apply (FrameProperties.get_dummies_indicator _ _ _ _ c values l Henc).
Qed.

(** The [sex_female] column prepared from [small_penguins]. *)
Lemma indicators_reach_the_matrix_witness :
  column small_X "sex_female" =
  Py.Ok [Flag false; Flag true; Flag true; Flag true].
Proof.
  apply (indicators_reach_the_matrix stub_lib small_penguins small_X small_y
           small_classes feature_columns_literal
           ["species"; "bill_length_mm"; "bill_depth_mm"; "flipper_length_mm";
            "body_mass_g"; "year"; "sex_female"; "sex_male";
            "island_Biscoe"; "island_Dream"; "island_Torgersen"]
           "sex" [Str "male"; Str "female"; Str "female"; Str "female"]
           (Str "female")).
  - reflexivity.
  - reflexivity.
  - repeat constructor; simpl; intuition discriminate.
  - now left.
  - reflexivity.
  - now left.
  - simpl. tauto.
Defined.

(** The labels handed to the fit are valid class indices, and decoding them
    through the label list written gives back the species of the complete
    records, in order. *)
Theorem labels_decode_to_species
    (lib : Libraries) (df X : DataFrame) (y : list nat) (cl : list cell)
    (cols : list string) (species : list string) :
  prepare lib df = Py.Ok (X, y, cl, cols) ->
  column (dropna df) "species" = Py.Ok (map Str species) ->
  Forall (fun i => i < List.length cl) y /\
  map (nth_error cl) y = map (fun s => Some (Str s)) species.
Proof.
  intros H Hsp. apply TrainingProperties.prepare_Ok_inv in H.
  destruct H as (enc & sp & _ & Hsp' & -> & -> & _).
  rewrite Hsp in Hsp'. injection Hsp' as <-.
  rewrite UniqueFacts.unique_Str.
  assert (Hdec : forall s, In s species ->
    nth_error (map Str (unique String.ltb species))
      (class_index (map Str (unique String.ltb species)) (Str s))
    = Some (Str s)).
  { intros s Hs. apply TrainingProperties.class_index_Str.
    apply UniqueFacts.unique_intro; [|exact Hs].
    intros t. apply StringOrder.ltb_trichotomy. }
  split.
  - apply Forall_forall. intros i Hi. apply in_map_iff in Hi.
    destruct Hi as (c & <- & Hc). apply in_map_iff in Hc.
    destruct Hc as (s & <- & Hs). apply nth_error_Some.
    rewrite (Hdec s Hs). discriminate.
  - rewrite !map_map. apply map_ext_in. intros s Hs. now apply Hdec.
Qed.

(** The labels of the complete records of [small_penguins]. *)
Lemma labels_decode_to_species_witness :
  Forall (fun i => i < List.length small_classes) small_y /\
  map (nth_error small_classes) small_y =
  map (fun s => Some (Str s)) ["Adelie"; "Chinstrap"; "Gentoo"; "Adelie"].
Proof.
  apply (labels_decode_to_species stub_lib small_penguins small_X small_y
           small_classes feature_columns_literal
           ["Adelie"; "Chinstrap"; "Gentoo"; "Adelie"]);
    reflexivity.
Defined.



(** Cleaning the table before the run changes nothing: the run on the
    cleaned table is the run on the table. *)
Theorem training_on_cleaned_data (lib : Libraries) (df : DataFrame) :
  train_advanced_model lib (dropna df) = train_advanced_model lib df.
Proof.
  apply TrainingProperties.train_reads_cleaned_data.
  unfold dropna. simpl. f_equal. apply FrameProperties.filter_idem.
Qed.

(** On the columns of the penguins data, when no record is complete (an
    empty table included) the encoding finds no level, so that the five
    indicator columns of the literal do not exist: the run stops with a
    [KeyError] naming them, before any library is called. *)
Theorem train_fails_without_complete_records
    (lib : Libraries) (records : list (list cell)) :
  (forall r, In r records ->
     exists i, i < 8 /\ isna (cell_at r i) = true) ->
  train_advanced_model lib {| columns := penguin_columns; rows := records |} =
  Py.Raise (Py.KeyError ["sex_female"; "sex_male"; "island_Biscoe";
                         "island_Dream"; "island_Torgersen"]).
Proof.
  intros H.
  assert (Hclean :
    dropna {| columns := penguin_columns; rows := records |} =
    {| columns := penguin_columns; rows := [] |}).
  { unfold dropna. simpl. f_equal.
    induction records as [|r rs IH]; simpl; [reflexivity|].
    destruct (H r (or_introl eq_refl)) as (i & Hi & Hna).
    replace (forallb _ _) with (complete 8 r) by reflexivity.
    rewrite (TrainingProperties.complete_false 8 i r Hi Hna).
    apply IH. intros r' Hr'. apply H. now right. }
  unfold train_advanced_model, prepare. rewrite Hclean. reflexivity.
Qed.

(** A table of two records, neither complete. *)
Lemma train_fails_without_complete_records_witness :
  train_advanced_model stub_lib
    {| columns := penguin_columns;
       rows := [unmeasured "Adelie" "Torgersen" 2007;
                unmeasured "Gentoo" "Biscoe" 2009] |} =
  Py.Raise (Py.KeyError ["sex_female"; "sex_male"; "island_Biscoe";
                         "island_Dream"; "island_Torgersen"]).
Proof.
  apply (train_fails_without_complete_records stub_lib).
  intros r [<-|[<-|[]]]; exists 2; (split; [lia|reflexivity]).
Defined.

(** *** Columns the script cannot do without *)





End PipelineProperties.

(** ** More on the [/predict] handler *)

Module HandlerProperties.

Import Main MoreFixtures.

(** *** Comparisons with a NaN *)

Lemma SFeqb_refl_not_nan (x : SpecFloat.spec_float) :
  x <> SpecFloat.S754_nan -> SpecFloat.SFeqb x x = true.
Proof.
  destruct x as [s|s| |s m e]; intros H; try reflexivity.
  - now destruct s.
  - now elim H.
  - unfold SpecFloat.SFeqb, SpecFloat.SFcompare.
    destruct s; rewrite Z.compare_refl, Pos.compare_cont_refl; reflexivity.
Qed.

Lemma is_nan_Prim2SF (x : float) :
  PrimFloat.is_nan x = true -> Prim2SF x = SpecFloat.S754_nan.
Proof.
  unfold PrimFloat.is_nan. rewrite eqb_spec. intros H.
  destruct (Prim2SF x) as [s|s| |s m e] eqn:E; try reflexivity;
    rewrite SFeqb_refl_not_nan in H; discriminate.
Qed.

(** Nothing is smaller than a NaN. *)
Lemma ltb_nan_r (x y : float) :
  PrimFloat.is_nan y = true -> (x <? y)%float = false.
Proof.
  intros H. rewrite ltb_spec, (is_nan_Prim2SF y H).
  unfold SpecFloat.SFltb, SpecFloat.SFcompare.
  now destruct (Prim2SF x).
Qed.

(** *** Properties *)

(** The confidence goes with the species: two responses that name the same
    species carry the same confidence, whatever the requests were. *)
Theorem confidence_is_fixed_by_species
    (f1 f2 : PenguinFeatures) (r1 r2 : PredictionResponse) :
  predict_penguin_species f1 = Returned r1 ->
  predict_penguin_species f2 = Returned r2 ->
  species r1 = species r2 ->
  confidence r1 = confidence r2.
Proof.
  unfold predict_penguin_species.
  destruct (ServingProperties.try_body_cases f1) as [E1|[E1|E1]];
    destruct (ServingProperties.try_body_cases f2) as [E2|[E2|E2]];
    rewrite E1, E2; intros [= <-] [= <-]; simpl;
    intros H; try reflexivity; discriminate.
Qed.

(** The sample request and another one with a deep, short bill. *)
Lemma confidence_is_fixed_by_species_witness :
  confidence (new_PredictionResponse "Adelie" 0.78%float) =
  confidence (new_PredictionResponse "Adelie" 0.78%float).
Proof.
  apply (confidence_is_fixed_by_species sample_data
           {| bill_length_mm := 36.0; bill_depth_mm := 19.5;
              flipper_length_mm := 190; body_mass_g := 3900 |});
    reflexivity.
Defined.

(** A bill length that is not a number is never above the threshold: the
    request is answered by the depth rule alone, and "Chinstrap" when the
    depth is not a number either.  The handler reports no error for such
    input. *)
Theorem nan_bill_is_answered (features : PenguinFeatures) :
  PrimFloat.is_nan (bill_length_mm features) = true ->
  predict_penguin_species features =
    Returned (if (18 <? bill_depth_mm features)%float
              then new_PredictionResponse "Adelie" 0.78%float
              else new_PredictionResponse "Chinstrap" 0.82%float) /\
  (PrimFloat.is_nan (bill_depth_mm features) = true ->
   predict_penguin_species features =
     Returned (new_PredictionResponse "Chinstrap" 0.82%float)).
Proof.
  intros Hl. unfold predict_penguin_species, try_body.
  rewrite (ltb_nan_r _ _ Hl). split.
  - now destruct (18 <? bill_depth_mm features)%float.
  - intros Hd. now rewrite (ltb_nan_r _ _ Hd).
Qed.

(** The request whose two bill measurements are NaN. *)
Lemma nan_bill_is_answered_witness :
  predict_penguin_species nan_bill =
    Returned (new_PredictionResponse "Chinstrap" 0.82%float) /\
  (PrimFloat.is_nan (bill_depth_mm nan_bill) = true ->
   predict_penguin_species nan_bill =
     Returned (new_PredictionResponse "Chinstrap" 0.82%float)).
Proof.
  apply (nan_bill_is_answered nan_bill). reflexivity.
Defined.

(** *** The order of floats *)

Ltac compare_cases :=
  repeat match goal with
         | H : context [Pos.compare_cont Eq ?m ?n] |- _ =>
             change (Pos.compare_cont Eq m n) with (Pos.compare m n) in H
         | |- context [Pos.compare_cont Eq ?m ?n] =>
             change (Pos.compare_cont Eq m n) with (Pos.compare m n)
         end;
  repeat match goal with
         | H : context [Z.compare ?x ?y] |- _ =>
             destruct (Z.compare_spec x y); simpl in H; try discriminate H
         | H : context [Pos.compare ?x ?y] |- _ =>
             destruct (Pos.compare_spec x y); simpl in H; try discriminate H
         end;
  repeat match goal with
         | |- context [Z.compare ?x ?y] =>
             destruct (Z.compare_spec x y); simpl
         | |- context [Pos.compare ?x ?y] =>
             destruct (Pos.compare_spec x y); simpl
         end;
  try reflexivity; try discriminate; exfalso; subst; lia.

(** [a < b] and [b <= c] give [a < c]. *)
Lemma SFltb_leb_trans (a b c : SpecFloat.spec_float) :
  SpecFloat.SFltb a b = true -> SpecFloat.SFleb b c = true ->
  SpecFloat.SFltb a c = true.
Proof.
  unfold SpecFloat.SFltb, SpecFloat.SFleb, SpecFloat.SFcompare.
  destruct a as [sa|sa| |sa ma ea], b as [sb|sb| |sb mb eb],
           c as [sc|sc| |sc mc ec];
    try destruct sa; try destruct sb; try destruct sc;
    simpl; intros Hab Hbc; try discriminate; try reflexivity;
    compare_cases.
Qed.

Lemma ltb_leb_trans (x y z : float) :
  (x <? y)%float = true -> (y <=? z)%float = true -> (x <? z)%float = true.
Proof.
  rewrite !ltb_spec, leb_spec. apply SFltb_leb_trans.
Qed.

(** The first rule is a threshold: when a request is answered "Gentoo", so
    is every request whose bill is at least as long, whatever its other
    measurements. *)
Theorem gentoo_is_upward_closed
    (f1 f2 : PenguinFeatures) (r1 : PredictionResponse) :
  predict_penguin_species f1 = Returned r1 ->
  species r1 = "Gentoo" ->
  (bill_length_mm f1 <=? bill_length_mm f2)%float = true ->
  predict_penguin_species f2 =
  Returned (new_PredictionResponse "Gentoo" 0.85%float).
Proof.
  unfold predict_penguin_species, try_body.
  destruct (45 <? bill_length_mm f1)%float eqn:E1.
  - intros _ _ Hle. now rewrite (ltb_leb_trans _ _ _ E1 Hle).
  - destruct (18 <? bill_depth_mm f1)%float; intros [= <-]; discriminate.
Qed.

(** A bill of 46.1 mm, then one of 50 mm on a much lighter bird. *)
Lemma gentoo_is_upward_closed_witness :
  predict_penguin_species
    {| bill_length_mm := 50.0; bill_depth_mm := 19.0;
       flipper_length_mm := 170; body_mass_g := 2900 |} =
  Returned (new_PredictionResponse "Gentoo" 0.85%float).
Proof.
  apply (gentoo_is_upward_closed
           {| bill_length_mm := 46.1; bill_depth_mm := 13.2;
              flipper_length_mm := 211; body_mass_g := 4500 |}
           _ (new_PredictionResponse "Gentoo" 0.85%float));
    reflexivity.
Defined.

End HandlerProperties.
